(** * A shallow embedding of [ecommerce/order.py] (eCommerceSimulator)

    The order aggregate ([BaseOrder], [Order], [RandomOrder]), the
    discount store ([initDiscountDatabase], [_check_add_discount_args],
    [addDiscountToDatabase]) and the display helper
    [formatCentsToDollars].

    Python methods that mutate [self] are modelled as functions from the
    object to a pair (outcome, object): when a method raises, the object
    keeps whatever state it had when the exception was raised, as in
    Python. *)

From stdpp Require Import base gmap strings list fin_maps.
From Stdlib Require Import Ascii.

Local Open Scope Z_scope.

(** ** Exceptions raised by the modelled code *)
Inductive exn :=
  | ProductNotFoundError   (* products.ProductNotFoundError *)
  | KeyError               (* dict.pop on an absent key *)
  | ProgrammingError       (* sqlite3.ProgrammingError *)
  | ValueError
  | OperationalError       (* sqlite3.OperationalError *)
  | IndexError
  | EOFError
  | OverflowError.         (* sqlite3 binding an int outside 64 bits *)

(** Outcome of a Python call: a returned value or a raised exception. *)
Inductive outcome (A : Type) :=
  | Ret (a : A)
  | Raise (e : exn).
Arguments Ret {A} a.
Arguments Raise {A} e.

(** ** The products module (a collaborator of order.py)

    Only its interface is used: [productExists] and [getProductByUUID];
    both are parameters of the order model below. *)
Record Product := mkProduct { name : string; price : Z }.

(** ** BaseOrder *)
Record BaseOrder := mkOrder {
  productList : gmap string Z;   (* {UUID: Quantity} *)
  orderID : Z                    (* uuid4(), as a 128-bit number *)
}.

Definition MAX_QUANTITY : Z := 25.

(** A method call: it may mutate the object and then return or raise. *)
Definition method (A : Type) := BaseOrder -> outcome A * BaseOrder.

Definition set_productList (o : BaseOrder) (pl : gmap string Z) : BaseOrder :=
  mkOrder pl (orderID o).

(** [BaseOrder.__init__]: an empty product list and a fresh [uuid4()],
    given here as the argument [uid]. *)
Definition BaseOrder_init (uid : Z) : BaseOrder := mkOrder ∅ uid.

Section Catalog.
Variable productExists : string -> bool.
Variable getProductByUUID : string -> option Product.

(** [BaseOrder.addProduct] *)
Definition addProduct (productUUID : string) : method unit := fun self =>
  if negb (productExists productUUID) then (Raise ProductNotFoundError, self)
  else match productList self !! productUUID with
       | None => (Ret tt, set_productList self (<[productUUID := 1]> (productList self)))
       | Some quantity =>
           if Z.leb quantity MAX_QUANTITY
           then (Ret tt, set_productList self
                           (<[productUUID := quantity + 1]> (productList self)))
           else (Ret tt, self)
       end.

(** [BaseOrder.removeProduct] *)
Definition removeProduct (productUUID : string) : method unit := fun self =>
  if negb (productExists productUUID) then (Raise ProductNotFoundError, self)
  else match productList self !! productUUID with
       | Some 1%Z => (Ret tt, set_productList self (delete productUUID (productList self)))
       | None => (Ret tt, self)
       | Some val => (Ret tt, set_productList self
                                (<[productUUID := val - 1]> (productList self)))
       end.

(** Python truthiness of an [int | None] ([self.productList.get(k)]). *)
Definition truthy (v : option Z) : bool :=
  match v with Some q => negb (Z.eqb q 0) | None => false end.

(** [BaseOrder.setQuantity] *)
Definition setQuantity (productUUID : string) (quantity : Z) : method unit := fun self =>
  if negb (productExists productUUID) then (Raise ProductNotFoundError, self)
  else if Z.eqb quantity 0 then
    (* self.productList.pop(productUUID) *)
    match productList self !! productUUID with
    | Some _ => (Ret tt, set_productList self (delete productUUID (productList self)))
    | None => (Raise KeyError, self)
    end
  else match productList self !! productUUID with
       | None => (Ret tt, set_productList self (<[productUUID := quantity]> (productList self)))
       | Some _ =>
           if Z.leb quantity MAX_QUANTITY then
             if truthy (productList self !! productUUID)
             then (Ret tt, set_productList self
                             (<[productUUID := quantity]> (productList self)))
             else (Ret tt, self)
           else (Ret tt, self)
       end.

(** [Order.__init__(orderDict)]: keep the entries with a truthy quantity
    whose product exists. An empty or absent dict leaves the empty list. *)
Definition Order_init (uid : Z) (orderDict : option (gmap string Z)) : BaseOrder :=
  match orderDict with
  | Some d =>
      if decide (d = ∅) then BaseOrder_init uid
      else mkOrder (filter (fun kv => kv.2 <> 0%Z /\ productExists kv.1 = true) d) uid
  | None => BaseOrder_init uid
  end.

(** [RandomOrder.__init__]: the dict comprehension over the draws
    [(random.choice(allProducts)[0], random.randint(1, 5))]; a later draw of
    the same product overwrites an earlier one. The draws are the input. *)
Definition RandomOrder_init (uid : Z) (draws : list (string * Z)) : BaseOrder :=
  mkOrder (foldl (fun m kv => <[kv.1 := kv.2]> m) ∅ draws) uid.

(** The diagnostic printed by [totalPrice] for a product missing from the
    products database. *)
Definition integrity_diagnostic : string :=
  "Something is very wrong with the order... this needs fixing.".

(** Python's [sum] over a list of ints. *)
Definition pysum (l : list Z) : Z := foldl Z.add 0 l.

(** The loop of [BaseOrder.totalPrice]: [prices] collects
    [p.price * quantity]; [printed] collects the console output of the
    [except products.ProductNotFoundError] branch. *)
Fixpoint totalPrice_loop (items : list (string * Z)) (prices : list Z)
    (printed : list string) : list Z * list string :=
  match items with
  | [] => (prices, printed)
  | (productUUID, quantity) :: rest =>
      match getProductByUUID productUUID with
      | Some p => totalPrice_loop rest (prices ++ [price p * quantity]) printed
      | None => totalPrice_loop rest prices (printed ++ [integrity_diagnostic])
      end
  end.

(** [BaseOrder.totalPrice]: the returned sum, with the printed lines. *)
Definition totalPrice (self : BaseOrder) : Z * list string :=
  let '(prices, printed) := totalPrice_loop (map_to_list (productList self)) [] [] in
  (pysum prices, printed).

End Catalog.

(** ** Discount database *)

(** A row of table [discounts]. [expirationDateTime] holds the text
    ["NULL"] or [expirationDate.isoformat()]. *)
Record row := mkRow {
  discountCode : string;
  percentage_col : option Z;
  dollarAmt_col : option Z;
  freeShipping_col : option bool;
  expirationDateTime_col : string
}.

(** The file [discounts.db]: [None] when it has no table [discounts],
    otherwise the rows of the table in insertion order. *)
Definition database := option (list row).

(** [str.lower()] on one character. *)
Definition lower (c : ascii) : ascii :=
  let n := nat_of_ascii c in
  if (65 <=? n)%nat && (n <=? 90)%nat then ascii_of_nat (n + 32) else c.

(** The [while True] loop of [initDiscountDatabase]; [responses] are the
    successive lines returned by [input()]. The statement is
    [CREATE TABLE discounts (discountCode text, percentage integer,
    dollarAmt integer, freeShipping boolean, expirationDateTime datetime)]:
    it fails when the table exists and declares no key or constraint. *)
Fixpoint initDiscountDatabase_loop (responses : list string) (db : database)
    : outcome unit * database :=
  match responses with
  | [] => (Raise EOFError, db)
  | EmptyString :: _ => (Raise IndexError, db)       (* response[0] *)
  | String c _ :: rest =>
      if Ascii.eqb (lower c) "y"%char then
        match db with
        | Some _ => (Raise OperationalError, db)      (* table already exists *)
        | None => (Ret tt, Some [])
        end
      else if Ascii.eqb (lower c) "n"%char then (Ret tt, db)
      else initDiscountDatabase_loop rest db
  end.

Definition initDiscountDatabase (responses : list string) (db : database)
    : outcome unit * database :=
  initDiscountDatabase_loop responses db.

Definition is_None {A} (o : option A) : bool :=
  match o with None => true | Some _ => false end.

(** [_check_add_discount_args]: [true] unless exactly one argument is set. *)
Definition check_add_discount_args {A B C} (arg0 : option A) (arg1 : option B)
    (arg2 : option C) : bool :=
  if (* if 0 arguments are set *)
     (is_None arg0 && is_None arg1 && is_None arg2)
     (* if 2 arguments are set *)
     || (is_None arg0 && negb (is_None arg1) && negb (is_None arg2))
     || (negb (is_None arg0) && negb (is_None arg1) && is_None arg2)
     || (negb (is_None arg0) && is_None arg1 && negb (is_None arg2))
     (* if 3 arguments are set *)
     || (negb (is_None arg0) && negb (is_None arg1) && negb (is_None arg2))
  then true
  else false.

(** [addDiscountToDatabase]; [expirationDate] is given by its
    [isoformat()] text. *)
Definition addDiscountToDatabase (db : database) (discountCode : string)
    (percentage dollarAmt : option Z) (freeShipping : option bool)
    (expirationDate : option string) : outcome unit * database :=
  if check_add_discount_args percentage dollarAmt freeShipping
  then (Raise ProgrammingError, db)
  else if (match percentage with Some p => (p <? 1) || (p >? 100) | None => false end)
  then (Raise ValueError, db)
  else if (match dollarAmt with Some d => d <? 1 | None => false end)
  then (Raise ValueError, db)
  else
    let _expirationDate :=
      match expirationDate with None => "NULL"%string | Some iso => iso end in
    (* INSERT INTO discounts VALUES (?, ?, ?, ?, ?) *)
    match db with
    | None => (Raise OperationalError, db)             (* no such table *)
    | Some rows =>
        (* binding a Python int to an SQLite INTEGER needs 64 bits;
           [percentage] is already within [1,100] here *)
        if (match dollarAmt with Some d => 2 ^ 63 <=? d | None => false end)
        then (Raise OverflowError, db)
        else (Ret tt, Some (rows ++ [mkRow discountCode percentage dollarAmt
                                       freeShipping _expirationDate]))
    end.

(** ** formatCentsToDollars *)

(** A Python [str] of ASCII characters. *)
Abbreviation pystr := (list ascii).
Definition lit (s : string) : pystr := String.list_ascii_of_string s.

Definition digit (d : Z) : ascii := ascii_of_nat (48 + Z.to_nat d).

(** Decimal digits of [n >= 0], least significant first; [fuel] bounds
    the number of digits. *)
Fixpoint digits_rev (fuel : nat) (n : Z) : pystr :=
  match fuel with
  | O => []
  | S f => digit (n mod 10) :: (if n <? 10 then [] else digits_rev f (n / 10))
  end.

Definition str_nonneg (n : Z) : pystr := rev (digits_rev (S (Z.to_nat n)) n).

(** Python's [str(n)] on an int. *)
Definition py_str (n : Z) : pystr :=
  if n <? 0 then "-"%char :: str_nonneg (- n) else str_nonneg n.

(** Python slices [s[1:]], [s[:-2]] and [s[-2:]]. *)
Definition slice_from1 (s : pystr) : pystr := drop 1 s.
Definition slice_upto_m2 (s : pystr) : pystr := take (length s - 2) s.
Definition slice_from_m2 (s : pystr) : pystr := drop (length s - 2) s.

Definition formatCentsToDollars (cents : Z) : pystr :=
  let temp := py_str cents in
  let '(temp, cents, negative) :=
    if cents <? 0 then (slice_from1 temp, Z.abs cents, true)
    else (temp, cents, false) in
  let temp :=
    if cents <? 10 then lit "$0.0" ++ temp
    else if cents <? 100 then lit "$0." ++ temp
    else lit "$" ++ slice_upto_m2 temp ++ lit "." ++ slice_from_m2 temp in
  if negative then "-"%char :: temp else temp.

(** ** Auxiliary definitions for the statements *)

(** [n] successive calls [order.addProduct(p)]. *)
Definition addProduct_n (productExists : string -> bool) (p : string) (n : nat)
    (o : BaseOrder) : BaseOrder :=
  Nat.iter n (fun o => snd (addProduct productExists p o)) o.

(** Number of arguments that are not [None]. *)
Definition count_set {A B C} (a : option A) (b : option B) (c : option C) : nat :=
  (if is_None a then 0 else 1) + (if is_None b then 0 else 1)
  + (if is_None c then 0 else 1).

(** Contribution of one [productList] entry to [totalPrice]. *)
Definition line_price (getProductByUUID : string -> option Product)
    (productUUID : string) (quantity : Z) : Z :=
  match getProductByUUID productUUID with
  | Some p => price p * quantity
  | None => 0
  end.

(** The orders obtained from a constructor and method calls, where every
    quantity handed to [Order(...)] or to [setQuantity] is non-negative.
    Calls that raise are included: they leave the object as it is. *)
Inductive reachable_nonneg (productExists : string -> bool) : BaseOrder -> Prop :=
  | rn_base uid : reachable_nonneg productExists (BaseOrder_init uid)
  | rn_order uid (od : option (gmap string Z)) :
      (forall d, od = Some d -> map_Forall (fun _ q => 0 <= q) d) ->
      reachable_nonneg productExists (Order_init productExists uid od)
  | rn_random uid draws :
      Forall (fun kv => 1 <= kv.2 <= 5) draws ->
      reachable_nonneg productExists (RandomOrder_init uid draws)
  | rn_add o p :
      reachable_nonneg productExists o ->
      reachable_nonneg productExists (snd (addProduct productExists p o))
  | rn_remove o p :
      reachable_nonneg productExists o ->
      reachable_nonneg productExists (snd (removeProduct productExists p o))
  | rn_set o p q :
      0 <= q -> reachable_nonneg productExists o ->
      reachable_nonneg productExists (snd (setQuantity productExists p q o)).

(** A small products database: products "A" (150 cents) and "B" (300 cents). *)
Definition demo_getProductByUUID (u : string) : option Product :=
  if String.eqb u "A" then Some (mkProduct "Apple" 150)
  else if String.eqb u "B" then Some (mkProduct "Bread" 300)
  else None.

Definition demo_productExists (u : string) : bool :=
  negb (is_None (demo_getProductByUUID u)).

(** ** BaseOrder.__str__ *)

Definition nl : ascii := ascii_of_nat 10.

Definition hex_digit (d : Z) : ascii :=
  if d <? 10 then digit d else ascii_of_nat (87 + Z.to_nat d).

(** The last [k] hexadecimal digits of [n], lowercase, zero-padded:
    [UUID.hex] is [hex_fixed 32] of the 128-bit value. *)
Fixpoint hex_fixed (k : nat) (n : Z) : pystr :=
  match k with
  | O => []
  | S k' => hex_fixed k' (n / 16) ++ [hex_digit (n mod 16)]
  end.

Section Render.
Variable getProductByUUID : string -> option Product.

(** The [for idx, (productUUID, quantity) in enumerate(...)] loop of
    [BaseOrder.__str__]: [output] is the text built so far, [printed] the
    console output of the [except] branch. *)
Fixpoint str_loop (idx : nat) (items : list (string * Z)) (output : pystr)
    (printed : list string) : pystr * list string :=
  match items with
  | [] => (output, printed)
  | (productUUID, quantity) :: rest =>
      match getProductByUUID productUUID with
      | Some p =>
          str_loop (S idx) rest
            (output ++ py_str (Z.of_nat idx + 1) ++ lit ". " ++ py_str quantity
             ++ lit " of " ++ String.list_ascii_of_string (name p) ++ lit " @ "
             ++ formatCentsToDollars (price p) ++ lit " each" ++ [nl])
            printed
      | None => str_loop (S idx) rest output (printed ++ [integrity_diagnostic])
      end
  end.

(** [BaseOrder.__str__]: the returned text and the console output, which
    includes the output of the call to [self.totalPrice]. *)
Definition BaseOrder_str (self : BaseOrder) : pystr * list string :=
  let header := lit "Order " ++ hex_fixed 32 (orderID self) ++ [nl] in
  let '(output, printed) :=
    str_loop 0 (map_to_list (productList self)) header [] in
  let '(total, printed_total) := totalPrice getProductByUUID self in
  (output ++ lit "TOTAL: " ++ formatCentsToDollars total, printed ++ printed_total).

End Render.

(** The orders obtained from a constructor and any method calls, when the
    random draws of [RandomOrder] come from the products database. *)
Inductive reachable_any (productExists : string -> bool) : BaseOrder -> Prop :=
  | ra_base uid : reachable_any productExists (BaseOrder_init uid)
  | ra_order uid od : reachable_any productExists (Order_init productExists uid od)
  | ra_random uid draws :
      Forall (fun kv => productExists kv.1 = true) draws ->
      reachable_any productExists (RandomOrder_init uid draws)
  | ra_add o p :
      reachable_any productExists o ->
      reachable_any productExists (snd (addProduct productExists p o))
  | ra_remove o p :
      reachable_any productExists o ->
      reachable_any productExists (snd (removeProduct productExists p o))
  | ra_set o p q :
      reachable_any productExists o ->
      reachable_any productExists (snd (setQuantity productExists p q o)).

(** Reading back a decimal [str]: the value of its digits. *)
Definition dec_value (s : pystr) : Z :=
  foldl (fun acc c => acc * 10 + (Z.of_nat (nat_of_ascii c) - 48)) 0 s.

(** * Properties *)

(** ** addProduct *)

Section AddProduct.
Variable productExists : string -> bool.

(** From an empty order, [n] calls of [addProduct(p)] leave the quantity
    [min(n, MAX_QUANTITY + 1)]: the test [quantity <= MAX_QUANTITY] still
    increments at 25. *)
Lemma addProduct_n_empty (p : string) (n : nat) (uid : Z) :
  productExists p = true ->
  productList (addProduct_n productExists p n (BaseOrder_init uid)) !! p
  = match n with O => None | S _ => Some (Z.of_nat (Nat.min n 26)) end.
Proof.
  intros Hp. induction n as [|n IH]; [reflexivity|].
  unfold addProduct_n in *. rewrite Nat.iter_succ.
  set (o := Nat.iter n _ _) in *.
  unfold addProduct. cbv beta. rewrite Hp. cbn [negb].
  destruct n as [|n].
  - rewrite IH. cbn. apply lookup_insert_eq.
  - rewrite IH. unfold MAX_QUANTITY.
    destruct (Z.leb_spec (Z.of_nat (Nat.min (S n) 26)) 25) as [Hle|Hgt].
    + cbn. rewrite lookup_insert_eq. f_equal. lia.
    + cbn [snd]. rewrite IH. f_equal. lia.
Qed.

End AddProduct.

(** C1: [addProduct] is meant to cap the quantity at [MAX_QUANTITY] (25),
    "the maximum number of any individual product allowed in an order".
    The code increments when [quantity <= MAX_QUANTITY]: a product at 25
    goes to 26, and 26 calls from an empty order give 26. *)
Theorem C1_addProduct_reaches_26 :
  productList (addProduct_n demo_productExists "A" 26 (BaseOrder_init 0)) !! "A"
    = Some 26
  /\ addProduct demo_productExists "A" (mkOrder {[ "A" := 25 ]} 0)
     = (Ret tt, mkOrder {[ "A" := 26 ]} 0).
Proof.
  split.
  - apply (addProduct_n_empty demo_productExists "A" 26 0). reflexivity.
  - unfold addProduct. simpl. rewrite lookup_singleton_eq. simpl.
    unfold set_productList. simpl. by rewrite insert_singleton.
Qed.

(** ** ProductNotFoundError *)

(** C9: for a product absent from the products database, [addProduct],
    [removeProduct] and [setQuantity] raise [ProductNotFoundError] and
    leave the whole order (product list and order id) unchanged. *)
Theorem C9_unknown_product_raises_unchanged
    (productExists : string -> bool) (o : BaseOrder) (p : string) (q : Z) :
  productExists p = false ->
  addProduct productExists p o = (Raise ProductNotFoundError, o)
  /\ removeProduct productExists p o = (Raise ProductNotFoundError, o)
  /\ setQuantity productExists p q o = (Raise ProductNotFoundError, o).
Proof.
  intros Hp. unfold addProduct, removeProduct, setQuantity. rewrite Hp.
  repeat split.
Qed.

Lemma C9_witness :
  demo_productExists "Z" = false
  /\ setQuantity demo_productExists "Z" 3 (mkOrder {[ "A" := 2 ]} 7)
     = (Raise ProductNotFoundError, mkOrder {[ "A" := 2 ]} 7).
Proof.
  split; [reflexivity|].
  apply (C9_unknown_product_raises_unchanged demo_productExists
           (mkOrder {[ "A" := 2 ]} 7) "Z" 3).
  reflexivity.
Defined.

(** ** removeProduct and setQuantity *)

Section Methods.
Variable productExists : string -> bool.

(** [removeProduct] with the test [val == 1] written as a boolean. *)
Lemma removeProduct_eq (p : string) (o : BaseOrder) :
  removeProduct productExists p o =
  if negb (productExists p) then (Raise ProductNotFoundError, o)
  else match productList o !! p with
       | None => (Ret tt, o)
       | Some val =>
           if Z.eqb val 1 then (Ret tt, set_productList o (delete p (productList o)))
           else (Ret tt, set_productList o (<[p := val - 1]> (productList o)))
       end.
Proof.
  unfold removeProduct. destruct (negb (productExists p)); [done|].
  destruct (productList o !! p) as [val|]; [|done].
  destruct val as [|[q|q|]|q]; reflexivity.
Qed.

End Methods.

(** C5: [setQuantity(p, 0)] removes a present entry and raises
    [KeyError] (from [dict.pop]) on an absent one, leaving the order as it
    was, whereas [removeProduct(p)] on an absent entry silently returns. *)
Theorem C5_setQuantity_zero
    (productExists : string -> bool) (o : BaseOrder) (p : string) :
  productExists p = true ->
  (is_Some (productList o !! p) ->
     setQuantity productExists p 0 o
     = (Ret tt, set_productList o (delete p (productList o))))
  /\ (productList o !! p = None ->
     setQuantity productExists p 0 o = (Raise KeyError, o)
     /\ removeProduct productExists p o = (Ret tt, o)).
Proof.
  intros Hp. split.
  - intros [v Hv]. unfold setQuantity. rewrite Hp, Hv. reflexivity.
  - intros Hn. unfold setQuantity, removeProduct. rewrite Hp, Hn. done.
Qed.

Lemma C5_witness :
  demo_productExists "A" = true
  /\ setQuantity demo_productExists "A" 0 (mkOrder ∅ 1) = (Raise KeyError, mkOrder ∅ 1)
  /\ removeProduct demo_productExists "A" (mkOrder ∅ 1) = (Ret tt, mkOrder ∅ 1).
Proof.
  split; [reflexivity|].
  apply (C5_setQuantity_zero demo_productExists (mkOrder ∅ 1) "A"); reflexivity.
Defined.

(** An order holding a zero quantity, reached from [BaseOrder()] by
    [setQuantity("A", -1)] then [addProduct("A")]. *)
Definition zero_entry_order : BaseOrder :=
  snd (addProduct demo_productExists "A"
         (snd (setQuantity demo_productExists "A" (-1) (BaseOrder_init 0)))).

(** C6 fails: on an entry holding 0, [setQuantity("A", 5)] does nothing,
    because of the guard [if self.productList.get(productUUID):]. *)
Lemma C6_counterexample :
  productList zero_entry_order !! "A" = Some 0
  /\ productList (snd (setQuantity demo_productExists "A" 5 zero_entry_order)) !! "A"
     = Some 0.
Proof. vm_compute. split; reflexivity. Qed.

(** C6 (amended): for [q <> 0], [setQuantity(p, q)] inserts [q] uncapped
    when [p] is absent; overwrites with [q] when [p] holds a non-zero
    quantity and [q <= MAX_QUANTITY]; leaves the order unchanged when [p]
    holds 0, or when [p] is present and [q > MAX_QUANTITY]. *)
Theorem C6_setQuantity_nonzero
    (productExists : string -> bool) (o : BaseOrder) (p : string) (q : Z) :
  productExists p = true -> q <> 0 ->
  (productList o !! p = None ->
     setQuantity productExists p q o
     = (Ret tt, set_productList o (<[p := q]> (productList o))))
  /\ (forall v, productList o !! p = Some v -> v <> 0 -> q <= MAX_QUANTITY ->
     setQuantity productExists p q o
     = (Ret tt, set_productList o (<[p := q]> (productList o))))
  /\ (productList o !! p = Some 0 -> setQuantity productExists p q o = (Ret tt, o))
  /\ (is_Some (productList o !! p) -> MAX_QUANTITY < q ->
     setQuantity productExists p q o = (Ret tt, o)).
Proof.
  intros Hp Hq. unfold setQuantity. rewrite Hp. cbn [negb].
  apply Z.eqb_neq in Hq. rewrite Hq.
  split; [|split; [|split]].
  - intros Hn. rewrite Hn. reflexivity.
  - intros v Hv Hv0 Hle. rewrite Hv. apply Z.leb_le in Hle. rewrite Hle.
    unfold truthy. apply Z.eqb_neq in Hv0. rewrite Hv0. reflexivity.
  - intros H0. rewrite H0. destruct (q <=? MAX_QUANTITY); reflexivity.
  - intros [v Hv] Hgt. rewrite Hv.
    assert (Hf : (q <=? MAX_QUANTITY) = false) by (apply Z.leb_gt; lia).
    rewrite Hf. reflexivity.
Qed.

Lemma C6_witness :
  demo_productExists "A" = true /\ 30 <> 0
  /\ setQuantity demo_productExists "A" 30 (mkOrder ∅ 1)
     = (Ret tt, mkOrder {[ "A" := 30 ]} 1).
Proof.
  split; [reflexivity|]. split; [lia|].
  apply (C6_setQuantity_nonzero demo_productExists (mkOrder ∅ 1) "A" 30);
    [reflexivity | lia | reflexivity].
Defined.

(** ** addProduct followed by removeProduct *)

(** C10 fails: on an entry holding 0 (at most [MAX_QUANTITY]),
    [addProduct] makes it 1 and [removeProduct] then deletes the entry. *)
Lemma C10_counterexample :
  productList zero_entry_order !! "A" = Some 0
  /\ productList
       (snd (removeProduct demo_productExists "A"
               (snd (addProduct demo_productExists "A" zero_entry_order))))
     <> productList zero_entry_order.
Proof.
  split; [vm_compute; reflexivity|].
  intros H. apply (f_equal (fun m : gmap string Z => m !! "A")) in H.
  vm_compute in H. discriminate.
Qed.

(** C10 (amended): when [p] is absent, or holds a non-zero quantity
    below [MAX_QUANTITY], [addProduct(p)] then [removeProduct(p)] gives
    back the order unchanged. *)
Theorem C10_add_then_remove
    (productExists : string -> bool) (o : BaseOrder) (p : string) :
  productExists p = true ->
  (productList o !! p = None
   \/ exists v, productList o !! p = Some v /\ v <> 0 /\ v < MAX_QUANTITY) ->
  snd (removeProduct productExists p (snd (addProduct productExists p o))) = o.
Proof.
  intros Hp Hpre. destruct o as [pl uid]. cbn [productList] in Hpre.
  rewrite removeProduct_eq. unfold addProduct. rewrite Hp. cbn [negb productList].
  destruct Hpre as [Hn | (v & Hv & Hv0 & Hle)].
  - rewrite Hn. cbn. rewrite lookup_insert_eq. cbn.
    rewrite delete_insert_eq, delete_id by done. reflexivity.
  - rewrite Hv. assert (Hle' : (v <=? MAX_QUANTITY) = true) by (apply Z.leb_le; lia).
    rewrite Hle'. cbn.
    rewrite lookup_insert_eq.
    assert (Hne : (v + 1 =? 1) = false) by (apply Z.eqb_neq; lia).
    rewrite Hne. cbn. rewrite insert_insert_eq.
    replace (v + 1 - 1) with v by lia. rewrite (insert_id pl p v Hv). reflexivity.
Qed.

Lemma C10_witness :
  demo_productExists "A" = true
  /\ snd (removeProduct demo_productExists "A"
            (snd (addProduct demo_productExists "A" (mkOrder {[ "A" := 24 ]} 4))))
     = mkOrder {[ "A" := 24 ]} 4.
Proof.
  split; [reflexivity|].
  apply (C10_add_then_remove demo_productExists (mkOrder {[ "A" := 24 ]} 4) "A");
    [reflexivity|].
  right. exists 24. split; [reflexivity|]. unfold MAX_QUANTITY. lia.
Defined.

(** ** Positive quantities *)

(** C3 fails: [setQuantity] stores a negative quantity as given. *)
Lemma C3_counterexample :
  productList (snd (setQuantity demo_productExists "A" (-3) (BaseOrder_init 0))) !! "A"
  = Some (-3).
Proof. vm_compute. reflexivity. Qed.

Lemma RandomOrder_positive (draws : list (string * Z)) (m : gmap string Z) :
  Forall (fun kv => 1 <= kv.2 <= 5) draws ->
  map_Forall (fun _ q => 0 < q) m ->
  map_Forall (fun _ q => 0 < q) (foldl (fun m kv => <[kv.1 := kv.2]> m) m draws).
Proof.
  revert m. induction draws as [|[k q] draws IH]; intros m Hd Hm; [done|].
  inversion Hd as [|? ? Hkq Hrest]; subst. cbn [foldl].
  apply IH; [done|]. apply map_Forall_insert_2; [cbn in Hkq |- *; lia|done].
Qed.

(** C3 (amended): when every quantity passed to [Order(orderDict)] and to
    [setQuantity] is non-negative, every entry of [productList] is strictly
    positive, whatever sequence of [addProduct], [removeProduct] and
    [setQuantity] calls (raising or not) follows the constructor. *)
Theorem C3_positive_quantities
    (productExists : string -> bool) (o : BaseOrder) :
  reachable_nonneg productExists o ->
  map_Forall (fun _ q => 0 < q) (productList o).
Proof.
  induction 1 as [uid | uid od Hod | uid draws Hdraws
                 | o p Hr IH | o p Hr IH | o p q Hq Hr IH].
  - apply map_Forall_empty.
  - unfold Order_init. destruct od as [d|]; [|apply map_Forall_empty].
    destruct (decide (d = ∅)); [apply map_Forall_empty|]. cbn [productList].
    specialize (Hod d eq_refl).
    apply map_Forall_lookup. intros i x Hx.
    apply map_lookup_filter_Some in Hx as [Hx [Hx0 _]]. cbn in Hx0.
    apply map_Forall_lookup with (i := i) (x := x) in Hod; [lia|done].
  - apply RandomOrder_positive; [done | apply map_Forall_empty].
  - unfold addProduct. destruct (negb (productExists p)); [done|].
    destruct (productList o !! p) as [v|] eqn:Hv.
    + destruct (v <=? MAX_QUANTITY); [|done]. cbn.
      apply map_Forall_insert_2; [|done].
      apply map_Forall_lookup with (i := p) (x := v) in IH; [lia|done].
    + cbn. apply map_Forall_insert_2; [lia|done].
  - rewrite removeProduct_eq. destruct (negb (productExists p)); [done|].
    destruct (productList o !! p) as [v|] eqn:Hv; [|done].
    destruct (Z.eqb_spec v 1) as [H1|H1]; cbn.
    + by apply map_Forall_delete.
    + apply map_Forall_insert_2; [|done].
      apply map_Forall_lookup with (i := p) (x := v) in IH; [lia|done].
  - unfold setQuantity. destruct (negb (productExists p)); [done|].
    destruct (Z.eqb_spec q 0) as [H0|H0].
    + destruct (productList o !! p); [cbn; by apply map_Forall_delete|done].
    + destruct (productList o !! p) as [v|].
      * destruct (q <=? MAX_QUANTITY); [|done].
        destruct (truthy _); [|done]. cbn.
        apply map_Forall_insert_2; [lia|done].
      * cbn. apply map_Forall_insert_2; [lia|done].
Qed.

Lemma C3_witness :
  reachable_nonneg demo_productExists
    (snd (addProduct demo_productExists "A" (BaseOrder_init 0)))
  /\ map_Forall (fun _ q => 0 < q)
       (productList (snd (addProduct demo_productExists "A" (BaseOrder_init 0)))).
Proof.
  assert (Hr : reachable_nonneg demo_productExists
                 (snd (addProduct demo_productExists "A" (BaseOrder_init 0)))).
  { apply rn_add. apply rn_base. }
  split; [exact Hr|]. apply (C3_positive_quantities demo_productExists _ Hr).
Defined.

(** ** Discount database *)

(** C4: [addDiscountToDatabase] raises [sqlite3.ProgrammingError] (the
    spec's ConstraintViolation for the discount kind) exactly when the
    number of arguments among [percentage], [dollarAmt], [freeShipping]
    that are not [None] differs from one. *)
Theorem C4_exactly_one_discount_kind
    (db : database) (code : string) (percentage dollarAmt : option Z)
    (freeShipping : option bool) (expirationDate : option string) :
  fst (addDiscountToDatabase db code percentage dollarAmt freeShipping expirationDate)
    = Raise ProgrammingError
  <-> count_set percentage dollarAmt freeShipping <> 1%nat.
Proof.
  unfold addDiscountToDatabase, count_set.
  destruct percentage as [pc|], dollarAmt as [da|], freeShipping as [fs|];
    cbn [check_add_discount_args is_None andb orb negb];
    repeat case_match; cbn; split; intros; try discriminate; try lia; done.
Qed.

(** Inserting a row checks neither the code nor the existing rows: the
    table has no key. *)
(** C2: the docstring of [DISCOUNTS_DATABASE] says [discountCode] is the
    primary key and must be unique, but [initDiscountDatabase] creates the
    table without a key: adding "X10" twice succeeds both times and the
    table holds two rows with code "X10". *)
Theorem C2_duplicate_code_accepted :
  let db0 := snd (initDiscountDatabase ["y"%string] None) in
  let r1 := addDiscountToDatabase db0 "X10" (Some 10) None None None in
  let r2 := addDiscountToDatabase (snd r1) "X10" (Some 10) None None None in
  db0 = Some []
  /\ fst r1 = Ret tt /\ fst r2 = Ret tt
  /\ option_map (map discountCode) (snd r2) = Some ["X10"; "X10"]%string.
Proof. vm_compute. repeat split. Qed.

(** ** totalPrice *)

Section Price.
Variable getProductByUUID : string -> option Product.

Definition priced_lines (items : list (string * Z)) : list Z :=
  flat_map (fun kv => match getProductByUUID kv.1 with
                      | Some p => [price p * kv.2] | None => [] end) items.

Definition missing_lines (items : list (string * Z)) : list string :=
  flat_map (fun kv => match getProductByUUID kv.1 with
                      | Some _ => [] | None => [integrity_diagnostic] end) items.

Lemma totalPrice_loop_eq (items : list (string * Z)) (prices : list Z)
    (printed : list string) :
  totalPrice_loop getProductByUUID items prices printed
  = (prices ++ priced_lines items, printed ++ missing_lines items).
Proof.
  revert prices printed.
  induction items as [|[u q] items IH]; intros prices printed; cbn.
  - by rewrite !app_nil_r.
  - destruct (getProductByUUID u); rewrite IH; cbn; by rewrite <- !app_assoc.
Qed.

Lemma pysum_foldl (a : Z) (l : list Z) : foldl Z.add a l = a + foldr Z.add 0 l.
Proof. revert a. induction l as [|x l IH]; intros a; cbn; [lia|]. rewrite IH. lia. Qed.

Lemma sum_priced_lines (items : list (string * Z)) :
  foldr Z.add 0 (priced_lines items)
  = foldr Z.add 0 (map (fun kv => line_price getProductByUUID kv.1 kv.2) items).
Proof.
  unfold priced_lines.
  induction items as [|[u q] items IH]; [done|]. cbn in IH |- *.
  unfold line_price at 1. destruct (getProductByUUID u); cbn; lia.
Qed.

Lemma totalPrice_closed (o : BaseOrder) :
  totalPrice getProductByUUID o
  = (foldr Z.add 0 (map (fun kv => line_price getProductByUUID kv.1 kv.2)
                        (map_to_list (productList o))),
     missing_lines (map_to_list (productList o))).
Proof.
  unfold totalPrice. rewrite totalPrice_loop_eq. cbn.
  unfold pysum. rewrite pysum_foldl, sum_priced_lines. reflexivity.
Qed.

Lemma totals_perm (l1 l2 : list (string * Z)) :
  l1 ≡ₚ l2 ->
  foldr Z.add 0 (map (fun kv => line_price getProductByUUID kv.1 kv.2) l1)
  = foldr Z.add 0 (map (fun kv => line_price getProductByUUID kv.1 kv.2) l2)
  /\ length (missing_lines l1) = length (missing_lines l2).
Proof.
  induction 1 as [|x l1 l2 _ [IH1 IH2]|x y l|l1 l2 l3 _ [IH1 IH2] _ [IH3 IH4]].
  - done.
  - unfold missing_lines in *. cbn. rewrite IH1, !length_app, IH2. done.
  - unfold missing_lines. cbn. rewrite !length_app. split; lia.
  - split; congruence.
Qed.

End Price.

(** C7: [totalPrice] is the sum over the entries of [productList] of
    unit price times quantity; an entry whose product is missing from the
    products database adds nothing and prints one diagnostic line, and no
    exception is raised (the model returns a plain integer). Stated as: the
    empty order costs 0 and prints nothing; adding a fresh entry adds its
    line price and one diagnostic exactly when its product is missing.
    With A at 150 cents and B at 300 cents, [{A: 2, B: 1}] costs 600. *)
Theorem C7_totalPrice (getProductByUUID : string -> option Product) :
  (forall uid, totalPrice getProductByUUID (mkOrder ∅ uid) = (0, []))
  /\ (forall (m : gmap string Z) k q uid, m !! k = None ->
       fst (totalPrice getProductByUUID (mkOrder (<[k := q]> m) uid))
         = line_price getProductByUUID k q
           + fst (totalPrice getProductByUUID (mkOrder m uid))
       /\ length (snd (totalPrice getProductByUUID (mkOrder (<[k := q]> m) uid)))
         = ((if is_None (getProductByUUID k) then 1 else 0)
            + length (snd (totalPrice getProductByUUID (mkOrder m uid))))%nat)
  /\ totalPrice demo_getProductByUUID (mkOrder (<[ "A" := 2 ]> {[ "B" := 1 ]}) 0)
     = (600, []).
Proof.
  split; [|split].
  - intros uid. reflexivity.
  - intros m k q uid Hk. rewrite !totalPrice_closed. cbn [fst snd productList].
    destruct (totals_perm getProductByUUID _ _ (map_to_list_insert m k q Hk))
      as [H1 H2].
    rewrite H1, H2. unfold missing_lines. cbn.
    rewrite length_app. unfold line_price, is_None.
    destruct (getProductByUUID k); cbn; split; lia.
  - vm_compute. reflexivity.
Qed.

(** ** formatCentsToDollars *)

Lemma digits_rev_fuel (f1 f2 : nat) (n : Z) :
  0 <= n -> (Z.to_nat n < f1)%nat -> (Z.to_nat n < f2)%nat ->
  digits_rev f1 n = digits_rev f2 n.
Proof.
  revert f2 n. induction f1 as [|f1 IH]; intros f2 n Hn H1 H2; [lia|].
  destruct f2 as [|f2]; [lia|]. cbn [digits_rev].
  destruct (Z.ltb_spec n 10) as [Hlt|Hge]; [done|].
  f_equal. apply IH.
  - apply Z.div_pos; lia.
  - assert (n / 10 < n) by (apply Z.div_lt; lia). lia.
  - assert (n / 10 < n) by (apply Z.div_lt; lia). lia.
Qed.

Lemma str_nonneg_digit (n : Z) : 0 <= n < 10 -> str_nonneg n = [digit n].
Proof.
  intros Hn. unfold str_nonneg. cbn [digits_rev].
  destruct (Z.ltb_spec n 10); [|lia]. cbn. rewrite Z.mod_small by lia. done.
Qed.

(** [str(n) = str(n // 10) + str(n % 10)] for [n >= 10]. *)
Lemma str_nonneg_step (n : Z) :
  10 <= n -> str_nonneg n = str_nonneg (n / 10) ++ [digit (n mod 10)].
Proof.
  intros Hn. unfold str_nonneg at 1. cbn [digits_rev].
  destruct (Z.ltb_spec n 10); [lia|]. cbn [rev]. f_equal.
  unfold str_nonneg. f_equal. apply digits_rev_fuel.
  - apply Z.div_pos; lia.
  - assert (n / 10 < n) by (apply Z.div_lt; lia). lia.
  - lia.
Qed.

Lemma tens_digit (n : Z) : 0 <= n -> (n / 10) mod 10 = (n mod 100) / 10.
Proof. intros Hn. Z.div_mod_to_equations. lia. Qed.

(** The branches of [formatCentsToDollars] on a non-negative amount. *)
Lemma format_nonneg (n : Z) : 0 <= n ->
  (if n <? 10 then lit "$0.0" ++ str_nonneg n
   else if n <? 100 then lit "$0." ++ str_nonneg n
   else lit "$" ++ slice_upto_m2 (str_nonneg n) ++ lit "."
        ++ slice_from_m2 (str_nonneg n))
  = lit "$" ++ str_nonneg (n / 100) ++ lit "."
    ++ [digit ((n mod 100) / 10); digit (n mod 10)].
Proof.
  intros Hn.
  destruct (Z.ltb_spec n 10) as [H10|H10];
    [|destruct (Z.ltb_spec n 100) as [H100|H100]].
  - rewrite str_nonneg_digit by lia.
    rewrite (Z.div_small n 100), (Z.mod_small n 100), (Z.div_small n 10),
      (Z.mod_small n 10) by lia. reflexivity.
  - rewrite str_nonneg_step, str_nonneg_digit by (Z.div_mod_to_equations; lia).
    rewrite (Z.div_small n 100), (Z.mod_small n 100) by lia. reflexivity.
  - rewrite str_nonneg_step by lia.
    rewrite (str_nonneg_step (n / 10)) by (apply Z.div_le_lower_bound; lia).
    rewrite Z.div_div, tens_digit by lia. cbn [Z.mul].
    rewrite <- !app_assoc. cbn [app].
    set (s := str_nonneg (n / 100)).
    unfold slice_upto_m2, slice_from_m2.
    rewrite length_app. cbn [length].
    rewrite take_app_length', drop_app_length' by lia. reflexivity.
Qed.

(** C8: [formatCentsToDollars(cents)] is ["-"] when [cents < 0], then
    ["$"], [str(|cents| // 100)], ["."] and the two digits of
    [|cents| % 100]; e.g. 5, 105 and -5 give "$0.05", "$1.05", "-$0.05". *)
Theorem C8_formatCentsToDollars (cents : Z) :
  formatCentsToDollars cents
  = (if cents <? 0 then lit "-" else []) ++ lit "$" ++ py_str (Z.abs cents / 100)
    ++ lit "." ++ [digit ((Z.abs cents mod 100) / 10); digit (Z.abs cents mod 10)]
  /\ formatCentsToDollars 5 = lit "$0.05"
  /\ formatCentsToDollars 105 = lit "$1.05"
  /\ formatCentsToDollars (-5) = lit "-$0.05".
Proof.
  split; [|split; [|split]]; [|reflexivity..].
  assert (Hpy : py_str (Z.abs cents / 100) = str_nonneg (Z.abs cents / 100)).
  { unfold py_str. destruct (Z.ltb_spec (Z.abs cents / 100) 0) as [H|H]; [|done].
    pose proof (Z.div_pos (Z.abs cents) 100 (Z.abs_nonneg cents)). lia. }
  rewrite Hpy. unfold formatCentsToDollars, py_str.
  destruct (Z.ltb_spec cents 0) as [Hneg|Hpos]; cbn iota beta.
  - unfold slice_from1. cbn [drop].
    replace (- cents) with (Z.abs cents) by lia.
    rewrite format_nonneg by lia. reflexivity.
  - rewrite (Z.abs_eq cents) by lia.
    rewrite format_nonneg by lia. reflexivity.
Qed.

(** * Further properties of the order aggregate *)

Lemma Order_init_lookup_eq (productExists : string -> bool) (uid : Z)
    (d : gmap string Z) (k : string) :
  productList (Order_init productExists uid (Some d)) !! k
  = match d !! k with
    | Some q => if (q =? 0) || negb (productExists k) then None else Some q
    | None => None
    end.
Proof.
  unfold Order_init. destruct (decide (d = ∅)) as [->|Hne].
  - cbn. by rewrite lookup_empty.
  - cbn [productList]. rewrite map_lookup_filter.
    destruct (d !! k) as [q|]; cbn; [|done].
    destruct (Z.eqb_spec q 0) as [H0|H0]; destruct (productExists k) eqn:Hk;
      cbn; case_guard as Hg; cbn; try done; exfalso; naive_solver.
Qed.

(** Round trip: a dict with no zero quantity and only existing products is
    kept as it is by [Order(orderDict)]. *)
Theorem Order_init_roundtrip (productExists : string -> bool) (uid : Z)
    (d : gmap string Z) :
  (forall k q, d !! k = Some q -> q <> 0 /\ productExists k = true) ->
  productList (Order_init productExists uid (Some d)) = d.
Proof.
  intros Hd. apply map_eq. intros k. rewrite Order_init_lookup_eq.
  destruct (d !! k) as [q|] eqn:Hq; [|done].
  destruct (Hd k q Hq) as [H0 Hk]. apply Z.eqb_neq in H0. by rewrite H0, Hk.
Qed.

Lemma Order_init_roundtrip_witness :
  (forall k q, ({[ "A" := 2 ]} : gmap string Z) !! k = Some q
               -> q <> 0 /\ demo_productExists k = true)
  /\ productList (Order_init demo_productExists 0 (Some {[ "A" := 2 ]}))
     = {[ "A" := 2 ]}.
Proof.
  assert (H : forall k q, ({[ "A" := 2 ]} : gmap string Z) !! k = Some q
                          -> q <> 0 /\ demo_productExists k = true).
  { intros k q Hk. apply lookup_singleton_Some in Hk as [<- <-].
    split; [lia | reflexivity]. }
  split; [exact H|]. apply (Order_init_roundtrip demo_productExists 0 _ H).
Defined.

(** The sanitizing constructor is idempotent: building an [Order] from the
    product list of an [Order] gives the same product list. *)
Theorem Order_init_idempotent (productExists : string -> bool) (uid uid' : Z)
    (d : gmap string Z) :
  let pl := productList (Order_init productExists uid (Some d)) in
  productList (Order_init productExists uid' (Some pl)) = pl.
Proof.
  intros pl. apply map_eq. intros k. rewrite Order_init_lookup_eq.
  subst pl. rewrite Order_init_lookup_eq.
  destruct (d !! k) as [q|]; [|done].
  destruct ((q =? 0) || negb (productExists k)) eqn:E; [done|]. by rewrite E.
Qed.

Lemma RandomOrder_size (draws : list (string * Z)) (m : gmap string Z) :
  (size (foldl (fun m kv => <[kv.1 := kv.2]> m) m draws) <= size m + length draws)%nat.
Proof.
  revert m. induction draws as [|[k q] draws IH]; intros m; cbn; [lia|].
  etransitivity; [apply IH|].
  destruct (m !! k) eqn:Hk.
  - rewrite map_size_insert_Some by eauto. lia.
  - rewrite map_size_insert_None by done. lia.
Qed.

Lemma RandomOrder_list_to_map (uid : Z) (draws : list (string * Z)) :
  productList (RandomOrder_init uid draws) = list_to_map (rev draws).
Proof.
  assert (Hfold : forall (l : list (string * Z)) (m : gmap string Z),
             foldl (fun m kv => <[kv.1 := kv.2]> m) m l
             = foldr (fun kv m => <[kv.1 := kv.2]> m) m (rev l)).
  { induction l as [|kv l IH]; intros m; [done|].
    cbn. rewrite IH, foldr_app. done. }
  cbn [RandomOrder_init productList]. rewrite Hfold. done.
Qed.

Lemma RandomOrder_in_draws (uid : Z) (draws : list (string * Z)) k q :
  productList (RandomOrder_init uid draws) !! k = Some q -> (k, q) ∈ draws.
Proof.
  intros Hk. rewrite RandomOrder_list_to_map in Hk.
  apply elem_of_list_to_map_2, list_elem_of_In, in_rev in Hk.
  by apply list_elem_of_In.
Qed.

(** [RandomOrder]: the product list maps each drawn product to the
    quantity of its last draw (later draws overwrite earlier ones), every
    entry is one of the draws, and there are at most as many entries as
    draws. *)
Theorem RandomOrder_init_spec (uid : Z) (draws : list (string * Z)) :
  productList (RandomOrder_init uid draws) = list_to_map (rev draws)
  /\ (forall k q, productList (RandomOrder_init uid draws) !! k = Some q ->
        (k, q) ∈ draws)
  /\ (size (productList (RandomOrder_init uid draws)) <= length draws)%nat.
Proof.
  split; [apply RandomOrder_list_to_map|split].
  - apply RandomOrder_in_draws.
  - cbn [RandomOrder_init productList].
    pose proof (RandomOrder_size draws ∅) as H. rewrite map_size_empty in H. lia.
Qed.

(** Frame: a call [addProduct(p)], [removeProduct(p)] or
    [setQuantity(p, q)] never changes [orderID] nor the entry of any other
    product [k <> p]. *)
Theorem mutations_frame (productExists : string -> bool) (o : BaseOrder)
    (p k : string) (q : Z) :
  k <> p ->
  (productList (snd (addProduct productExists p o)) !! k = productList o !! k
   /\ orderID (snd (addProduct productExists p o)) = orderID o)
  /\ (productList (snd (removeProduct productExists p o)) !! k = productList o !! k
   /\ orderID (snd (removeProduct productExists p o)) = orderID o)
  /\ (productList (snd (setQuantity productExists p q o)) !! k = productList o !! k
   /\ orderID (snd (setQuantity productExists p q o)) = orderID o).
Proof.
  intros Hk. split; [|split].
  - unfold addProduct. destruct (negb (productExists p)); [done|].
    destruct (productList o !! p) as [v|]; [destruct (v <=? MAX_QUANTITY)|];
      cbn; try done; by rewrite lookup_insert_ne by congruence.
  - rewrite removeProduct_eq. destruct (negb (productExists p)); [done|].
    destruct (productList o !! p) as [v|]; [destruct (v =? 1)|]; cbn; try done.
    + by rewrite lookup_delete_ne by congruence.
    + by rewrite lookup_insert_ne by congruence.
  - unfold setQuantity. destruct (negb (productExists p)); [done|].
    destruct (q =? 0).
    + destruct (productList o !! p); cbn; [|done].
      by rewrite lookup_delete_ne by congruence.
    + destruct (productList o !! p) as [z|]; cbn.
      * destruct (q <=? MAX_QUANTITY); [|done].
        destruct (negb (z =? 0)); cbn; [|done]. by rewrite lookup_insert_ne by congruence.
      * by rewrite lookup_insert_ne by congruence.
Qed.

Lemma mutations_frame_witness :
  ("B" : string) <> "A"
  /\ productList (snd (setQuantity demo_productExists "A" 3 (mkOrder {[ "B" := 1 ]} 0)))
       !! "B" = Some 1.
Proof.
  assert (H : ("B" : string) <> "A") by discriminate.
  split; [exact H|].
  exact (proj1 (proj2 (proj2
    (mutations_frame demo_productExists (mkOrder {[ "B" := 1 ]} 0) "A" "B" 3 H)))).
Defined.

Lemma reachable_keys_exist (productExists : string -> bool) (o : BaseOrder) :
  reachable_any productExists o ->
  forall k q, productList o !! k = Some q -> productExists k = true.
Proof.
  induction 1 as [uid | uid od | uid draws Hdraws | o p Hr IH | o p Hr IH
                 | o p q' Hr IH]; intros k q Hkq.
  - cbn in Hkq. by rewrite lookup_empty in Hkq.
  - destruct od as [d|]; [|cbn in Hkq; by rewrite lookup_empty in Hkq].
    rewrite Order_init_lookup_eq in Hkq. destruct (d !! k) as [v|]; [|done].
    destruct (productExists k); [done|]. by rewrite orb_true_r in Hkq.
  - apply RandomOrder_in_draws in Hkq. rewrite Forall_forall in Hdraws.
    exact (Hdraws (k, q) Hkq).
  - unfold addProduct in Hkq. destruct (productExists p) eqn:Hp; cbn in Hkq;
      [|eauto].
    destruct (productList o !! p) as [v|]; [destruct (v <=? MAX_QUANTITY)|];
      cbn in Hkq; try eauto;
      (apply lookup_insert_Some in Hkq as [[<- _]|[_ Hkq]]; eauto).
  - rewrite removeProduct_eq in Hkq. destruct (productExists p) eqn:Hp; cbn in Hkq;
      [|eauto].
    destruct (productList o !! p) as [v|]; [destruct (v =? 1)|]; cbn in Hkq; try eauto.
    + apply lookup_delete_Some in Hkq as [_ Hkq]; eauto.
    + apply lookup_insert_Some in Hkq as [[<- _]|[_ Hkq]]; eauto.
  - unfold setQuantity in Hkq. destruct (productExists p) eqn:Hp; cbn in Hkq;
      [|eauto].
    destruct (q' =? 0).
    + destruct (productList o !! p); cbn in Hkq; [|eauto].
      apply lookup_delete_Some in Hkq as [_ Hkq]; eauto.
    + destruct (productList o !! p) as [z|]; cbn in Hkq.
      * destruct (q' <=? MAX_QUANTITY); [|eauto].
        destruct (negb (z =? 0)); cbn in Hkq; [|eauto].
        apply lookup_insert_Some in Hkq as [[<- _]|[_ Hkq]]; eauto.
      * apply lookup_insert_Some in Hkq as [[<- _]|[_ Hkq]]; eauto.
Qed.

(** Every product stored in an order built by the constructors and the
    three mutations exists in the products database: the mutations check
    [productExists] before writing and [Order(...)] filters on it. *)
Theorem reachable_products_exist (productExists : string -> bool) (o : BaseOrder) :
  reachable_any productExists o ->
  forall k q, productList o !! k = Some q -> productExists k = true.
Proof. apply reachable_keys_exist. Qed.

Lemma reachable_products_exist_witness :
  reachable_any demo_productExists
    (snd (addProduct demo_productExists "A" (BaseOrder_init 0)))
  /\ productList (snd (addProduct demo_productExists "A" (BaseOrder_init 0))) !! "A"
     = Some 1
  /\ demo_productExists "A" = true.
Proof.
  assert (Hr : reachable_any demo_productExists
                 (snd (addProduct demo_productExists "A" (BaseOrder_init 0)))).
  { apply ra_add, ra_base. }
  assert (Hl : productList (snd (addProduct demo_productExists "A" (BaseOrder_init 0)))
                 !! "A" = Some 1) by reflexivity.
  split; [exact Hr|]. split; [exact Hl|].
  exact (reachable_products_exist demo_productExists _ Hr "A" 1 Hl).
Defined.

(** ** totalPrice under the mutations *)

Section PriceUpdates.
Variable getProductByUUID : string -> option Product.

Lemma totalPrice_insert_fresh (m : gmap string Z) k q uid :
  m !! k = None ->
  fst (totalPrice getProductByUUID (mkOrder (<[k := q]> m) uid))
  = line_price getProductByUUID k q + fst (totalPrice getProductByUUID (mkOrder m uid)).
Proof.
  intros Hk. rewrite !totalPrice_closed. cbn [fst productList].
  destruct (totals_perm getProductByUUID _ _ (map_to_list_insert m k q Hk)) as [H1 _].
  rewrite H1. reflexivity.
Qed.

Lemma totalPrice_insert (m : gmap string Z) k q uid :
  fst (totalPrice getProductByUUID (mkOrder (<[k := q]> m) uid))
  = line_price getProductByUUID k q
    + fst (totalPrice getProductByUUID (mkOrder (delete k m) uid)).
Proof.
  rewrite <- insert_delete_eq. apply totalPrice_insert_fresh, lookup_delete_eq.
Qed.

Lemma totalPrice_split (m : gmap string Z) k v uid :
  m !! k = Some v ->
  fst (totalPrice getProductByUUID (mkOrder m uid))
  = line_price getProductByUUID k v
    + fst (totalPrice getProductByUUID (mkOrder (delete k m) uid)).
Proof. intros Hk. rewrite <- (insert_id m k v Hk) at 1. apply totalPrice_insert. Qed.

Lemma missing_lines_nil (l : list (string * Z)) :
  (forall kv, kv ∈ l -> is_Some (getProductByUUID kv.1)) -> missing_lines getProductByUUID l = [].
Proof.
  induction l as [|[u q] l IH]; intros Hl; [done|]. unfold missing_lines in *. cbn.
  destruct (Hl (u, q) (list_elem_of_here _ _)) as [pr Hpr]. cbn in Hpr. rewrite Hpr.
  cbn. apply IH. intros kv Hkv. apply Hl. by apply list_elem_of_further.
Qed.

End PriceUpdates.

(** [addProduct(p)] on a product priced [pr] that is absent or holds at
    most [MAX_QUANTITY] raises [totalPrice] by [pr]. *)
Theorem addProduct_totalPrice (productExists : string -> bool)
    (getProductByUUID : string -> option Product) (o : BaseOrder) (p : string)
    (pr : Product) :
  productExists p = true -> getProductByUUID p = Some pr ->
  (productList o !! p = None
   \/ exists v, productList o !! p = Some v /\ v <= MAX_QUANTITY) ->
  fst (totalPrice getProductByUUID (snd (addProduct productExists p o)))
  = fst (totalPrice getProductByUUID o) + price pr.
Proof.
  intros Hp Hg Hpre. unfold addProduct. rewrite Hp. cbn [negb].
  destruct o as [pl uid]. unfold set_productList. cbn [productList orderID] in *.
  destruct Hpre as [Hn | (v & Hv & Hle)].
  - rewrite Hn. cbn. rewrite totalPrice_insert_fresh by done.
    unfold line_price. rewrite Hg. lia.
  - rewrite Hv. assert (Hle' : (v <=? MAX_QUANTITY) = true) by (apply Z.leb_le; lia).
    rewrite Hle'. cbn.
    rewrite totalPrice_insert, (totalPrice_split _ pl p v) by done.
    unfold line_price. rewrite Hg. lia.
Qed.

Lemma addProduct_totalPrice_witness :
  demo_productExists "A" = true
  /\ fst (totalPrice demo_getProductByUUID
            (snd (addProduct demo_productExists "A" (mkOrder {[ "A" := 2 ]} 0))))
     = fst (totalPrice demo_getProductByUUID (mkOrder {[ "A" := 2 ]} 0)) + 150.
Proof.
  split; [reflexivity|].
  apply (addProduct_totalPrice demo_productExists demo_getProductByUUID
           (mkOrder {[ "A" := 2 ]} 0) "A" (mkProduct "Apple" 150));
    [reflexivity | reflexivity|].
  right. exists 2. split; [reflexivity | unfold MAX_QUANTITY; lia].
Defined.

(** [removeProduct(p)] on a present product priced [pr] lowers
    [totalPrice] by [pr]. *)
Theorem removeProduct_totalPrice (productExists : string -> bool)
    (getProductByUUID : string -> option Product) (o : BaseOrder) (p : string)
    (pr : Product) :
  productExists p = true -> getProductByUUID p = Some pr ->
  is_Some (productList o !! p) ->
  fst (totalPrice getProductByUUID (snd (removeProduct productExists p o)))
  = fst (totalPrice getProductByUUID o) - price pr.
Proof.
  intros Hp Hg [v Hv]. rewrite removeProduct_eq, Hp. cbn [negb].
  destruct o as [pl uid]. unfold set_productList. cbn [productList orderID] in *.
  rewrite Hv, (totalPrice_split _ pl p v) by done.
  unfold line_price. rewrite Hg.
  destruct (Z.eqb_spec v 1) as [->|H1]; cbn.
  - lia.
  - rewrite totalPrice_insert. unfold line_price. rewrite Hg. lia.
Qed.

Lemma removeProduct_totalPrice_witness :
  demo_productExists "B" = true
  /\ fst (totalPrice demo_getProductByUUID
            (snd (removeProduct demo_productExists "B" (mkOrder {[ "B" := 1 ]} 0))))
     = fst (totalPrice demo_getProductByUUID (mkOrder {[ "B" := 1 ]} 0)) - 300.
Proof.
  split; [reflexivity|].
  apply (removeProduct_totalPrice demo_productExists demo_getProductByUUID
           (mkOrder {[ "B" := 1 ]} 0) "B" (mkProduct "Bread" 300));
    [reflexivity | reflexivity | by eexists].
Defined.

(** When [setQuantity(p, q)] changes the entry of a product priced [pr]
    from [old] (0 when absent) to [q] (inserting, overwriting, or removing
    when [q = 0]), [totalPrice] changes by [pr * (q - old)]. *)
Theorem setQuantity_totalPrice (productExists : string -> bool)
    (getProductByUUID : string -> option Product) (o : BaseOrder) (p : string)
    (q : Z) (pr : Product) :
  productExists p = true -> getProductByUUID p = Some pr ->
  ((productList o !! p = None /\ q <> 0)
   \/ exists v, productList o !! p = Some v /\ v <> 0 /\ (q = 0 \/ q <= MAX_QUANTITY)) ->
  fst (totalPrice getProductByUUID (snd (setQuantity productExists p q o)))
  = fst (totalPrice getProductByUUID o)
    + price pr * (q - match productList o !! p with Some v => v | None => 0 end).
Proof.
  intros Hp Hg Hpre. unfold setQuantity. rewrite Hp. cbn [negb].
  destruct o as [pl uid]. unfold set_productList. cbn [productList orderID] in *.
  destruct Hpre as [[Hn Hq] | (v & Hv & Hv0 & Hq)].
  - apply Z.eqb_neq in Hq as Hq'. rewrite Hq', Hn. cbn.
    rewrite totalPrice_insert_fresh by done. unfold line_price. rewrite Hg. lia.
  - rewrite Hv. rewrite (totalPrice_split _ pl p v) by done.
    unfold line_price. rewrite Hg.
    destruct (Z.eqb_spec q 0) as [->|Hq0]; cbn.
    + lia.
    + destruct Hq as [Hq|Hq]; [lia|]. apply Z.leb_le in Hq. rewrite Hq.
      apply Z.eqb_neq in Hv0. rewrite Hv0. cbn.
      rewrite totalPrice_insert. unfold line_price. rewrite Hg. lia.
Qed.

Lemma setQuantity_totalPrice_witness :
  demo_productExists "A" = true
  /\ fst (totalPrice demo_getProductByUUID
            (snd (setQuantity demo_productExists "A" 5 (mkOrder {[ "A" := 2 ]} 0))))
     = fst (totalPrice demo_getProductByUUID (mkOrder {[ "A" := 2 ]} 0)) + 150 * (5 - 2).
Proof.
  split; [reflexivity|].
  rewrite (setQuantity_totalPrice demo_productExists demo_getProductByUUID
           (mkOrder {[ "A" := 2 ]} 0) "A" 5 (mkProduct "Apple" 150));
    [reflexivity | reflexivity | reflexivity |].
  right. exists 2. split; [reflexivity|]. split; [lia|]. right. unfold MAX_QUANTITY. lia.
Defined.

(** When every product the database reports as existing can be fetched,
    [totalPrice] prints no diagnostic on any order built by the
    constructors and the mutations. *)
Theorem totalPrice_no_diagnostic (productExists : string -> bool)
    (getProductByUUID : string -> option Product) (o : BaseOrder) :
  (forall u, productExists u = true -> is_Some (getProductByUUID u)) ->
  reachable_any productExists o ->
  snd (totalPrice getProductByUUID o) = [].
Proof.
  intros Hcat Hr. rewrite totalPrice_closed. cbn [snd].
  apply missing_lines_nil. intros [k q] Hkq. apply elem_of_map_to_list in Hkq.
  apply Hcat. exact (reachable_keys_exist productExists o Hr k q Hkq).
Qed.

Lemma totalPrice_no_diagnostic_witness :
  (forall u, demo_productExists u = true -> is_Some (demo_getProductByUUID u))
  /\ reachable_any demo_productExists
       (snd (addProduct demo_productExists "B"
               (Order_init demo_productExists 0 (Some {[ "A" := 2 ]}))))
  /\ fst (totalPrice demo_getProductByUUID
            (snd (addProduct demo_productExists "B"
                    (Order_init demo_productExists 0 (Some {[ "A" := 2 ]}))))) = 600
  /\ snd (totalPrice demo_getProductByUUID
            (snd (addProduct demo_productExists "B"
                    (Order_init demo_productExists 0 (Some {[ "A" := 2 ]}))))) = [].
Proof.
  assert (Hcat : forall u, demo_productExists u = true -> is_Some (demo_getProductByUUID u)).
  { intros u. unfold demo_productExists, is_None.
    destruct (demo_getProductByUUID u); [by eexists | discriminate]. }
  assert (Hr : reachable_any demo_productExists
                 (snd (addProduct demo_productExists "B"
                         (Order_init demo_productExists 0 (Some {[ "A" := 2 ]}))))).
  { apply ra_add, ra_order. }
  split; [exact Hcat|]. split; [exact Hr|]. split; [vm_compute; reflexivity|].
  exact (totalPrice_no_diagnostic demo_productExists demo_getProductByUUID _ Hcat Hr).
Defined.

(** ** BaseOrder.__str__ *)

Lemma hex_fixed_length (k : nat) (n : Z) : length (hex_fixed k n) = k.
Proof.
  revert n. induction k as [|k IH]; intros n; [done|].
  cbn. rewrite length_app, IH. cbn. lia.
Qed.

Lemma str_loop_shape (getProductByUUID : string -> option Product) (idx : nat)
    (items : list (string * Z)) (output : pystr) (printed : list string) :
  exists body, str_loop getProductByUUID idx items output printed
               = (output ++ body, printed ++ missing_lines getProductByUUID items).
Proof.
  revert idx output printed.
  induction items as [|[u q] items IH]; intros idx output printed.
  - exists []. cbn. by rewrite !app_nil_r.
  - cbn [str_loop]. unfold missing_lines. cbn [flat_map fst].
    destruct (getProductByUUID u);
      match goal with |- context [str_loop _ _ _ ?out ?pr] =>
        destruct (IH (S idx) out pr) as [body Hb] end;
      rewrite Hb; eexists; f_equal; rewrite <- ?app_assoc; reflexivity.
Qed.

(** [str(order)] starts with ["Order "], the 32 hex digits of [orderID]
    and a newline, and ends with ["TOTAL: "] and the formatted
    [totalPrice]; it prints the diagnostic of each product missing from
    the database twice: once in its own loop and once through
    [totalPrice]. *)
Theorem BaseOrder_str_spec (getProductByUUID : string -> option Product)
    (o : BaseOrder) :
  (exists body,
     fst (BaseOrder_str getProductByUUID o)
     = lit "Order " ++ hex_fixed 32 (orderID o) ++ [nl] ++ body
       ++ lit "TOTAL: " ++ formatCentsToDollars (fst (totalPrice getProductByUUID o)))
  /\ length (hex_fixed 32 (orderID o)) = 32%nat
  /\ snd (BaseOrder_str getProductByUUID o)
     = snd (totalPrice getProductByUUID o) ++ snd (totalPrice getProductByUUID o).
Proof.
  unfold BaseOrder_str.
  destruct (str_loop_shape getProductByUUID 0 (map_to_list (productList o))
              (lit "Order " ++ hex_fixed 32 (orderID o) ++ [nl]) []) as [body Hb].
  rewrite Hb. pose proof (totalPrice_closed getProductByUUID o) as Ht.
  destruct (totalPrice getProductByUUID o) as [total printed_total] eqn:ET.
  split; [|split].
  - exists body. cbn [fst]. by rewrite <- !app_assoc.
  - apply hex_fixed_length.
  - cbn. injection Ht as _ ->. done.
Qed.

(** ** Discount database *)

(** [initDiscountDatabase] never modifies an existing table: it either
    leaves the database as it was or, when there is no table [discounts],
    creates it empty. *)
Theorem initDiscountDatabase_only_creates (responses : list string) (db : database) :
  snd (initDiscountDatabase responses db) = db
  \/ (db = None /\ snd (initDiscountDatabase responses db) = Some []).
Proof.
  unfold initDiscountDatabase.
  induction responses as [|[|c r] rest IH]; cbn; [by left | by left |].
  destruct (Ascii.eqb (lower c) "y"%char).
  - destruct db; cbn; [by left | by right].
  - destruct (Ascii.eqb (lower c) "n"%char); [by left | exact IH].
Qed.

(** Answers whose first letter is neither y nor n (in either case) are
    skipped: the prompt is repeated. *)
Theorem initDiscountDatabase_skips (junk responses : list string) (db : database) :
  Forall (fun r => exists c rest, r = String c rest
                   /\ lower c <> "y"%char /\ lower c <> "n"%char) junk ->
  initDiscountDatabase (junk ++ responses) db = initDiscountDatabase responses db.
Proof.
  unfold initDiscountDatabase. induction 1 as [|r junk (c & rest & -> & Hy & Hn) _ IH];
    [done|].
  cbn. apply Ascii.eqb_neq in Hy, Hn. rewrite Hy, Hn. exact IH.
Qed.

Lemma initDiscountDatabase_skips_witness :
  Forall (fun r => exists c rest, r = String c rest
                   /\ lower c <> "y"%char /\ lower c <> "n"%char) ["maybe"%string]
  /\ initDiscountDatabase (["maybe"%string] ++ ["Y"%string]) None
     = initDiscountDatabase ["Y"%string] None.
Proof.
  assert (H : Forall (fun r => exists c rest, r = String c rest
                   /\ lower c <> "y"%char /\ lower c <> "n"%char) ["maybe"%string]).
  { constructor; [|constructor]. exists "m"%char, "aybe"%string.
    split; [reflexivity|]. split; vm_compute; discriminate. }
  split; [exact H|]. exact (initDiscountDatabase_skips _ ["Y"%string] None H).
Defined.

(** Range checks: a percentage-only discount raises [ValueError] exactly
    when the percentage is outside [1, 100], a dollar-only discount exactly
    when the amount is below 1; a free-shipping-only discount never does. *)
Theorem addDiscountToDatabase_ranges (db : database) (code : string)
    (expirationDate : option string) :
  (forall p, fst (addDiscountToDatabase db code (Some p) None None expirationDate)
             = Raise ValueError <-> p < 1 \/ 100 < p)
  /\ (forall d, fst (addDiscountToDatabase db code None (Some d) None expirationDate)
             = Raise ValueError <-> d < 1)
  /\ (forall f, fst (addDiscountToDatabase db code None None (Some f) expirationDate)
             <> Raise ValueError).
Proof.
  unfold addDiscountToDatabase. cbn. split; [|split].
  - intros p. destruct (Z.ltb_spec p 1); [cbn; split; [lia|done]|].
    destruct (Z.gtb_spec p 100); cbn; [split; [lia|done]|].
    destruct db; cbn; split; (discriminate || lia).
  - intros d. destruct (Z.ltb_spec d 1); cbn; [split; [lia|done]|].
    destruct db; cbn; [destruct (2 ^ 63 <=? d)|]; split; (discriminate || lia).
  - intros f. destruct db; discriminate.
Qed.

(** ** formatCentsToDollars is injective *)

Lemma format_shape (cents : Z) :
  formatCentsToDollars cents
  = (if cents <? 0 then lit "-" else []) ++ lit "$" ++ str_nonneg (Z.abs cents / 100)
    ++ lit "." ++ [digit ((Z.abs cents mod 100) / 10); digit (Z.abs cents mod 10)].
Proof.
  unfold formatCentsToDollars, py_str.
  destruct (Z.ltb_spec cents 0) as [Hneg|Hpos]; cbn iota beta.
  - unfold slice_from1. cbn [drop].
    replace (- cents) with (Z.abs cents) by lia.
    rewrite format_nonneg by lia. reflexivity.
  - rewrite (Z.abs_eq cents) by lia.
    rewrite format_nonneg by lia. reflexivity.
Qed.

Lemma nat_of_digit (d : Z) : 0 <= d < 10 -> nat_of_ascii (digit d) = (48 + Z.to_nat d)%nat.
Proof. intros Hd. unfold digit. apply nat_ascii_embedding. lia. Qed.

Lemma dec_value_snoc (s : pystr) (d : Z) :
  0 <= d < 10 -> dec_value (s ++ [digit d]) = dec_value s * 10 + d.
Proof.
  intros Hd. unfold dec_value. rewrite foldl_app. cbn [foldl].
  rewrite nat_of_digit by done. lia.
Qed.

(** Reading back [str(n)] gives [n]. *)
Lemma dec_value_str (n : Z) : 0 <= n -> dec_value (str_nonneg n) = n.
Proof.
  intros Hn. remember (S (Z.to_nat n)) as k eqn:Hk.
  assert (Hlt : (Z.to_nat n < k)%nat) by lia. clear Hk.
  revert n Hn Hlt. induction k as [|k IH]; intros n Hn Hlt; [lia|].
  destruct (Z.ltb_spec n 10) as [H10|H10].
  - rewrite str_nonneg_digit by lia.
    rewrite <- (app_nil_l [digit n]), dec_value_snoc by lia. reflexivity.
  - rewrite str_nonneg_step, dec_value_snoc by (try apply Z.mod_pos_bound; lia).
    assert (Hd : n / 10 < n) by (apply Z.div_lt; lia).
    rewrite IH by (try apply Z.div_pos; lia).
    Z.div_mod_to_equations. lia.
Qed.

Lemma digit_inj (a b : Z) : 0 <= a < 10 -> 0 <= b < 10 -> digit a = digit b -> a = b.
Proof.
  intros Ha Hb H. apply (f_equal nat_of_ascii) in H.
  rewrite !nat_of_digit in H by done. lia.
Qed.

(** Different amounts of cents are rendered as different strings. *)
Theorem formatCentsToDollars_injective (a b : Z) :
  formatCentsToDollars a = formatCentsToDollars b -> a = b.
Proof.
  intros H. rewrite !format_shape in H.
  assert (Hcore : forall x y : Z,
    str_nonneg (Z.abs x / 100)
      ++ ["."%char; digit ((Z.abs x mod 100) / 10); digit (Z.abs x mod 10)]
    = str_nonneg (Z.abs y / 100)
      ++ ["."%char; digit ((Z.abs y mod 100) / 10); digit (Z.abs y mod 10)] ->
    Z.abs x = Z.abs y).
  { intros x y Hxy.
    apply app_inj_2 in Hxy as [Hs Hd]; [|reflexivity].
    apply (f_equal dec_value) in Hs.
    rewrite !dec_value_str in Hs by (apply Z.div_pos; lia).
    injection Hd as Hd1 Hd2.
    apply digit_inj in Hd1; [|Z.div_mod_to_equations; lia..].
    apply digit_inj in Hd2; [|Z.div_mod_to_equations; lia..].
    pose proof (Z.abs_nonneg x). pose proof (Z.abs_nonneg y).
    Z.div_mod_to_equations. lia. }
  unfold lit in H. cbn [String.list_ascii_of_string] in H.
  destruct (Z.ltb_spec a 0), (Z.ltb_spec b 0); cbn [app] in H.
  - injection H as H. apply Hcore in H. lia.
  - discriminate.
  - discriminate.
  - injection H as H. apply Hcore in H. lia.
Qed.

Lemma formatCentsToDollars_injective_witness :
  formatCentsToDollars 105 = formatCentsToDollars 105 /\ 105 = 105.
Proof.
  split; [reflexivity|]. apply formatCentsToDollars_injective. reflexivity.
Defined.
